(** * Code Red chatbot: conversation state, prompt assembly and the SSE relay

    A shallow embedding of [main.py].  The module-level attributes
    [app.message_history] and [app.system_information] become an explicit
    [app_state] that every endpoint threads through; the two asynchronous
    generators behind [/api/sse/{prompt}] become step functions on their
    suspension points, emitting the frames they [yield] and the delays they
    [await]. *)

From Stdlib Require Import ZArith Ascii.
From stdpp Require Import gmap strings list fin_maps.

Set Warnings "-register-all".


(** ** Text helpers *)

(** The line feed written [\n] in the Python literals. *)
Definition nl : string := String "010"%char EmptyString.

(** Python truthiness of a [str]: only the empty string is falsy. *)
Definition truthy (s : string) : bool :=
  match s with
  | EmptyString => false
  | String _ _ => true
  end.

(** [x or EmptyString] for an optional text [x]: [None] and the empty
    string both give the empty string. *)
Definition or_empty (x : option string) : string :=
  match x with
  | Some s => if truthy s then s else EmptyString
  | None => EmptyString
  end.

(** [str(x)] for a [str | None] value, as an f-string interpolates it. *)
Definition str_of_optional (x : option string) : string :=
  match x with
  | Some s => s
  | None => "None"
  end.

(** ** Data model *)

(** [class MessageHistoryModel(BaseModel)]. *)
Record MessageHistoryModel := { message : string }.

(** [mistralai.models.chat_completion.ChatMessage], restricted to the two
    fields the program sets. *)
Record ChatMessage := { role : string; content : string }.

(** The process-wide state hung on the [app] object. *)
Record app_state := {
  message_history : list MessageHistoryModel;
  system_information : gmap string string
}.

Definition key_systems : string := "Systems being used".
Definition key_observations : string := "Initial Observations".
Definition key_errors : string := "Initial Error messages".

(** The state the module body leaves behind at import time. *)
Definition app_init : app_state :=
  {| message_history := [];
     system_information :=
       <[key_errors := EmptyString]>
         (<[key_observations := EmptyString]>
            (<[key_systems := EmptyString]> ∅)) |}.

(** The three subscripts of [app.system_information] that the generator
    reads succeed exactly when the keys are present. *)
Definition has_onboarding_keys (st : app_state) : Prop :=
  is_Some (system_information st !! key_systems) ∧
  is_Some (system_information st !! key_observations) ∧
  is_Some (system_information st !! key_errors).

(** ** The page returned by [api_index]

    The FastUI components the program builds, with the fields it sets. *)
Inductive AnyComponent :=
| PageTitle (text : string)
| Page (components : list AnyComponent)
| Heading (text : string)
| Paragraph (text : string)
| Table (data : list MessageHistoryModel) (no_data_message : string)
| ModelForm (model submit_url method : string)
| Link (components : list AnyComponent) (on_click_url : string)
| Text (text : string)
| Div (components : list AnyComponent) (class_name : string)
| ServerLoad (path : string) (sse : bool) (load_trigger : string)
    (components : list AnyComponent)
| Footer (extra_text : string) (links : list AnyComponent)
| Markdown (text : string).

(** [FastUI(root=[...])]. *)
Record FastUI := { root : list AnyComponent }.

(** [api_index]: the only effect is the optional clearing of the history;
    the page is built from the state after it. *)
Definition api_index (chat : option string) (reset : bool) (st : app_state)
  : list AnyComponent * app_state :=
  let st1 :=
    if reset
    then {| message_history := [];
            system_information := system_information st |}
    else st in
  ([ PageTitle "Code Red - Incident reporting and triage tool";
     Page
       [ Heading "Code Red Chatbot";
         Paragraph "This is a incident reporting and triage tool using AI";
         Table (message_history st1) "No messages yet.";
         ModelForm "InitialInformation" "/initial_information" "GET";
         ModelForm "ChatForm" "." "GOTO";
         Link [Text "Reset Chat"] "/?reset=true";
         Div [ServerLoad ("/sse/" +:+ str_of_optional chat) true "load" []]
           "my-2 p-2 border rounded" ];
     Footer "Made with FastUI" [] ],
   st1).

(** [update_initial_information]: three item assignments on the shared
    dictionary. *)
Definition update_initial_information
    (systems_used initial_observations initial_errors : string)
    (st : app_state) : app_state :=
  {| message_history := message_history st;
     system_information :=
       <[key_errors := initial_errors]>
         (<[key_observations := initial_observations]>
            (<[key_systems := systems_used]> (system_information st))) |}.

(** ** Prompt assembly (the first half of [ai_response_generator]) *)

Definition system_message : string :=
  "Your job is to help software developers and system engineers to fix and report major incidents for their systems.".

(** The [for message_history in app.message_history] loop, started from
    the header line. *)
Definition prompt_template (history : list MessageHistoryModel)
    (prompt : string) : string :=
  fold_left (fun acc mh => acc +:+ (message mh +:+ nl)) history
            ("Previous messages:" +:+ nl)
  +:+ ("Human: " +:+ prompt).

(** The [mistral_messages] list.  A missing dictionary key raises
    [KeyError], rendered as [None]. *)
Definition mistral_messages (st : app_state) (prompt : string)
  : option (list ChatMessage) :=
  systems ← system_information st !! key_systems;
  observations ← system_information st !! key_observations;
  errors ← system_information st !! key_errors;
  Some
    [ {| role := "system"; content := system_message |};
      {| role := "assistant";
         content := "What systems are you using for your Application?" |};
      {| role := "user"; content := systems |};
      {| role := "assistant";
         content := "What are your initial observations for you incident?" |};
      {| role := "user"; content := observations |};
      {| role := "assistant";
         content := "Have you had any initial error messages?" |};
      {| role := "user"; content := errors |};
      {| role := "user";
         content := prompt_template (message_history st) prompt |} ].

(** ** The SSE relay *)

(** What a client of a generator can observe: the call that opens the
    provider stream, each frame handed over by [yield], and each
    [await asyncio.sleep(...)] the generator parks on. *)
Inductive event :=
| EvChatStream (model : string) (messages : list ChatMessage)
| EvYield (msg : string)
| EvSleep (delay : Z).

(** One chunk of the provider stream, seen through the only expression the
    program applies to it: [chunk.choices[0].delta.content], absent
    ([None]) or a text. *)
Definition chunk := option string.

(** Control points of [empty_response]. *)
Inductive empty_pc :=
| EmEntry                    (* created, body not entered *)
| EmBeat (msg : string)      (* about to run [yield msg] of the loop *)
| EmSleep (msg : string).    (* about to run [await asyncio.sleep(10)] *)

(** Control points of [ai_response_generator].  [AiEntry] carries the
    chunks the provider stream is going to deliver before it completes;
    [AiStream] holds the local variables [output] and [msg] and the chunks
    still to come. *)
Inductive ai_pc :=
| AiEntry (prompt : string) (upstream : list chunk)
| AiStream (output msg : string) (upstream : list chunk)
| AiBeat (msg : string)      (* about to run [yield msg] of the loop *)
| AiSleep (msg : string).    (* about to run [await asyncio.sleep(10)] *)

Inductive generator :=
| GenEmpty (pc : empty_pc)
| GenAi (pc : ai_pc).

(** Calling a generator function only creates the generator object, parked
    at its entry. *)
Definition empty_response : generator := GenEmpty EmEntry.

Definition ai_response_generator (prompt : string) (upstream : list chunk)
  : generator := GenAi (AiEntry prompt upstream).

(** [sse_ai_response]: the test on the prompt picks the generator. *)
Definition sse_ai_response (prompt : option string) (upstream : list chunk)
  : generator :=
  match prompt with
  | None => empty_response
  | Some p =>
      if bool_decide (p = EmptyString) || bool_decide (p = "None")
      then empty_response
      else ai_response_generator p upstream
  end.

(** [app.message_history.append(MessageHistoryModel(message=output))]. *)
Definition append_history (output : string) (st : app_state) : app_state :=
  {| message_history := message_history st ++ [{| message := output |}];
     system_information := system_information st |}.

(** The state of the specification's worked example: onboarding answers
    A, B, C and two earlier turns X and Y. *)
Definition sample_state : app_state :=
  {| message_history := [{| message := "X" |}; {| message := "Y" |}];
     system_information :=
       <[key_errors := "C"]>
         (<[key_observations := "B"]> (<[key_systems := "A"]> ∅)) |}.

(** A stand-in for the JSON serialiser, used to run the relay on concrete
    inputs: the Markdown texts of the document, each between brackets. *)
Definition bracket_dump (m : FastUI) : string :=
  foldr (fun c acc =>
           match c with
           | Markdown text => "[" +:+ text +:+ "]" +:+ acc
           | _ => acc
           end) EmptyString (root m).

Section Relay.

(** [m.model_dump_json(by_alias=True, exclude_none=True)]: the JSON
    serialiser of the UI library, left abstract. *)
Variable model_dump_json : FastUI → string.

(** The f-string [data: {...}\n\n] around a one-component document. *)
Definition sse_frame (text : string) : string :=
  "data: " +:+ model_dump_json {| root := [Markdown text] |} +:+ nl +:+ nl.

(** One resumption of [empty_response]: the events up to the next
    suspension point. *)
Definition empty_step (pc : empty_pc) : list event * empty_pc :=
  match pc with
  | EmEntry =>
      let msg := sse_frame EmptyString in
      ([EvYield msg], EmBeat msg)
  | EmBeat msg => ([EvYield msg], EmSleep msg)
  | EmSleep msg => ([EvSleep 10], EmBeat msg)
  end.

(** [output] on entry to the [for chunk in ...] loop. *)
Definition initial_output (prompt : string) : string :=
  ("**User:** " +:+ prompt +:+ nl +:+ nl) +:+ "**Chatbot:** ".

(** One move of [ai_response_generator].  [None] is the [KeyError] that
    ends the generator; otherwise the events produced and the next
    control point, together with the shared state.  The construction of
    the provider client is taken to succeed, and the provider stream to
    deliver its chunks and complete; the history is appended to when the
    [for] loop is left, before the first [yield] of the sleeping loop. *)
Definition ai_step (pc : ai_pc) (st : app_state)
  : option (list event * ai_pc * app_state) :=
  match pc with
  | AiEntry prompt upstream =>
      messages ← mistral_messages st prompt;
      Some ([EvChatStream "mistral-small" messages],
            AiStream (initial_output prompt) EmptyString upstream, st)
  | AiStream output msg (c :: upstream) =>
      let token := or_empty c in
      if truthy token
      then
        let output := output +:+ token in
        let msg := sse_frame output in
        Some ([EvYield msg], AiStream output msg upstream, st)
      else Some ([], AiStream output msg upstream, st)
  | AiStream output msg [] =>
      Some ([], AiBeat msg, append_history output st)
  | AiBeat msg => Some ([EvYield msg], AiSleep msg, st)
  | AiSleep msg => Some ([EvSleep 10], AiBeat msg, st)
  end.

(** A step of whichever generator serves the request. *)
Definition step (g : generator) (st : app_state)
  : option (list event * generator * app_state) :=
  match g with
  | GenEmpty pc =>
      let '(evs, pc') := empty_step pc in Some (evs, GenEmpty pc', st)
  | GenAi pc =>
      '(evs, pc', st') ← ai_step pc st;
      Some (evs, GenAi pc', st')
  end.

(** [n] steps, collecting the events; stops early if the generator
    raised. *)
Fixpoint run (n : nat) (g : generator) (st : app_state)
  : list event * option generator * app_state :=
  match n with
  | O => ([], Some g, st)
  | S n =>
      match step g st with
      | None => ([], None, st)
      | Some (evs, g', st') =>
          let '(evs', g'', st'') := run n g' st' in
          (evs ++ evs', g'', st'')
      end
  end.

(** The number of steps from the creation of [ai_response_generator] to its
    arrival at the sleeping loop: the entry, one per chunk, and the
    completion of the stream. *)
Definition completion_steps (upstream : list chunk) : nat :=
  2 + length upstream.

(** The frames among the events, in order. *)
Definition frames (evs : list event) : list string :=
  omap (fun e => match e with EvYield msg => Some msg | _ => None end) evs.

(** ** Requests served one after another *)

Inductive request :=
| ReqIndex (chat : option string) (reset : bool)
| ReqInitialInformation
    (systems_used initial_observations initial_errors : string)
| ReqSse (prompt : option string) (upstream : list chunk).

(** The state a request leaves behind.  A streaming request is followed
    until its provider stream has completed and the generator has reached
    its sleeping loop. *)
Definition serve (r : request) (st : app_state) : app_state :=
  match r with
  | ReqIndex chat reset => (api_index chat reset st).2
  | ReqInitialInformation systems_used initial_observations initial_errors =>
      update_initial_information
        systems_used initial_observations initial_errors st
  | ReqSse prompt upstream =>
      (run (completion_steps upstream) (sse_ai_response prompt upstream) st).2
  end.

Definition serve_all (rs : list request) (st : app_state) : app_state :=
  fold_left (fun st r => serve r st) rs st.

(** ** Vocabulary of the specification *)

(** A prompt that [sse_ai_response] hands to [ai_response_generator]. *)
Definition active_prompt (prompt : option string) : option string :=
  match prompt with
  | None => None
  | Some p =>
      if bool_decide (p = EmptyString) || bool_decide (p = "None")
      then None
      else Some p
  end.

(** The streaming requests that take the generation path, with their
    prompts and provider streams, in submission order. *)
Definition active_streams (rs : list request)
  : list (string * list chunk) :=
  omap (fun r =>
          match r with
          | ReqSse prompt upstream =>
              p ← active_prompt prompt; Some (p, upstream)
          | _ => None
          end) rs.

(** No request of the sequence asks for a reset. *)
Definition without_reset (rs : list request) : Prop :=
  Forall (fun r => ∀ chat, r ≠ ReqIndex chat true) rs.

(** One replayed history line. *)
Definition history_line (mh : MessageHistoryModel) : string :=
  message mh +:+ nl.

(** Concatenation of a list of texts, left to right. *)
Definition concat_strings (l : list string) : string :=
  foldr String.append EmptyString l.

(** The texts of the tokens that carry content, in arrival order. *)
Definition tokens (upstream : list chunk) : list string :=
  filter (fun t => truthy t = true) (or_empty <$> upstream).

(** The successive values of the accumulated output: one per token, each
    extending the previous one. *)
Fixpoint accumulate (output : string) (toks : list string) : list string :=
  match toks with
  | [] => []
  | t :: toks => (output +:+ t) :: accumulate (output +:+ t) toks
  end.

(** The heartbeat pattern: [k] rounds of one frame and one ten-unit wait. *)
Definition heartbeat (msg : string) (k : nat) : list event :=
  concat (replicate k [EvYield msg; EvSleep 10]).

(** The generator is inside its sleeping loop, holding the frame [msg]. *)
Definition in_loop (msg : string) (g : generator) : Prop :=
  match g with
  | GenEmpty (EmBeat m) | GenEmpty (EmSleep m)
  | GenAi (AiBeat m) | GenAi (AiSleep m) => m = msg
  | _ => False
  end.

(** The frames of the generation phase and the output it ends with. *)
Definition content_frames (prompt : string) (upstream : list chunk)
  : list string :=
  sse_frame <$> accumulate (initial_output prompt) (tokens upstream).

Definition final_output (prompt : string) (upstream : list chunk) : string :=
  initial_output prompt +:+ concat_strings (tokens upstream).

(** ** Reading the page and the request log *)

(** The row lists of the tables of a component tree, in document order. *)
Fixpoint tables (c : AnyComponent) : list (list MessageHistoryModel) :=
  match c with
  | Table data _ => [data]
  | Page cs | Link cs _ | Div cs _ | ServerLoad _ _ _ cs | Footer _ cs =>
      concat (map tables cs)
  | _ => []
  end.

(** The server-load components of a component tree: the path each one
    fetches and whether it asks for an event stream. *)
Fixpoint server_loads (c : AnyComponent) : list (string * bool) :=
  match c with
  | ServerLoad path sse _ cs => (path, sse) :: concat (map server_loads cs)
  | Page cs | Link cs _ | Div cs _ | Footer _ cs =>
      concat (map server_loads cs)
  | _ => []
  end.

(** The calls to the provider among the events, in order. *)
Definition provider_calls (evs : list event)
  : list (string * list ChatMessage) :=
  omap (fun e =>
          match e with
          | EvChatStream model messages => Some (model, messages)
          | _ => None
          end) evs.

(** The generator is past the point where [ai_response_generator] opens
    the provider stream. *)
Definition past_entry (g : generator) : Prop :=
  match g with
  | GenAi (AiEntry _ _) => False
  | _ => True
  end.

(** The frame variable [msg] of a generator holds the empty text it is
    initialised with or a rendered frame. *)
Definition holds_frame (g : generator) : Prop :=
  match g with
  | GenEmpty (EmBeat m) | GenEmpty (EmSleep m)
  | GenAi (AiStream _ m _) | GenAi (AiBeat m) | GenAi (AiSleep m) =>
      m = EmptyString ∨ ∃ text, m = sse_frame text
  | _ => True
  end.

(** What an event of the relay may be: a call to the one model, a frame
    that is the empty text or a rendered document, a wait of 10. *)
Definition relay_event (e : event) : Prop :=
  match e with
  | EvChatStream model _ => model = "mistral-small"
  | EvYield m => m = EmptyString ∨ ∃ text, m = sse_frame text
  | EvSleep delay => delay = 10%Z
  end.

(** An index request that resets. *)
Definition is_reset (r : request) : bool :=
  match r with
  | ReqIndex _ true => true
  | _ => false
  end.

(** The requests that follow the last reset, all of them if there is
    none. *)
Fixpoint since_reset (rs : list request) : list request :=
  match rs with
  | [] => []
  | r :: rs =>
      if existsb is_reset rs then since_reset rs
      else if is_reset r then rs else r :: rs
  end.

(** The answers of the most recent onboarding submission. *)
Definition last_onboarding (rs : list request)
  : option (string * string * string) :=
  last (omap (fun r =>
                match r with
                | ReqInitialInformation a b c => Some (a, b, c)
                | _ => None
                end) rs).

(** The history entries of a list of completed streams. *)
Definition entries (streams : list (string * list chunk))
  : list MessageHistoryModel :=
  (fun s => {| message := final_output s.1 s.2 |}) <$> streams.

(** A state whose dictionary lacks the onboarding keys. *)
Definition bare_state : app_state :=
  {| message_history := []; system_information := ∅ |}.

(** ** Texts *)

Lemma append_cons (x : ascii) (a b : string) :
  String x a +:+ b = String x (a +:+ b).
Proof. reflexivity. Qed.

Lemma append_assoc (a b c : string) : (a +:+ b) +:+ c = a +:+ (b +:+ c).
Proof.
  induction a as [|x a IH]; [done|].
  by rewrite !append_cons, IH.
Qed.

Lemma append_empty_r (a : string) : a +:+ EmptyString = a.
Proof.
  induction a as [|x a IH]; [done|].
  by rewrite append_cons, IH.
Qed.

Lemma concat_strings_app (l1 l2 : list string) :
  concat_strings (l1 ++ l2) = concat_strings l1 +:+ concat_strings l2.
Proof.
  induction l1 as [|s l1 IH]; simpl; [done|].
  by rewrite IH, append_assoc.
Qed.

Lemma fold_left_append {A} (f : A → string) (l : list A) (acc : string) :
  fold_left (fun acc x => acc +:+ f x) l acc
  = acc +:+ concat_strings (f <$> l).
Proof.
  revert acc; induction l as [|x l IH]; intros acc; simpl.
  - by rewrite append_empty_r.
  - by rewrite IH, append_assoc.
Qed.

Lemma accumulate_length output toks :
  length (accumulate output toks) = length toks.
Proof.
  revert output; induction toks as [|t toks IH]; intros output; simpl;
    [done | by rewrite IH].
Qed.

(** The [i]-th accumulated output is the initial output followed by the
    first [i+1] tokens. *)
Lemma accumulate_lookup output toks i :
  i < length toks →
  accumulate output toks !! i
  = Some (output +:+ concat_strings (take (S i) toks)).
Proof.
  revert output i; induction toks as [|t toks IH]; intros output i Hi;
    simpl in Hi; [lia|].
  destruct i as [|i]; simpl.
  - by rewrite append_empty_r.
  - rewrite IH by lia. by rewrite append_assoc.
Qed.

Lemma tokens_cons_content (c : chunk) (upstream : list chunk) :
  truthy (or_empty c) = true →
  tokens (c :: upstream) = or_empty c :: tokens upstream.
Proof. intros H. unfold tokens. by rewrite fmap_cons, filter_cons_True. Qed.

Lemma tokens_cons_empty (c : chunk) (upstream : list chunk) :
  truthy (or_empty c) = false →
  tokens (c :: upstream) = tokens upstream.
Proof.
  intros H. unfold tokens. rewrite fmap_cons, filter_cons_False; [done|].
  by rewrite H.
Qed.

(** ** The state invariant behind the dictionary subscripts *)

Lemma app_init_keys : has_onboarding_keys app_init.
Proof. repeat split; by eexists. Qed.

Lemma update_initial_information_keys a b c st :
  has_onboarding_keys (update_initial_information a b c st).
Proof.
  unfold has_onboarding_keys, update_initial_information,
    key_systems, key_observations, key_errors; simpl.
  repeat split; eexists; by simplify_map_eq.
Qed.

Lemma api_index_keys chat reset st :
  has_onboarding_keys st → has_onboarding_keys (api_index chat reset st).2.
Proof. by destruct reset. Qed.

Lemma append_history_keys output st :
  has_onboarding_keys st → has_onboarding_keys (append_history output st).
Proof. done. Qed.

Lemma mistral_messages_is_Some st prompt :
  has_onboarding_keys st → is_Some (mistral_messages st prompt).
Proof.
  intros ([s Hs] & [o Ho] & [e He]). unfold mistral_messages.
  rewrite Hs, Ho, He. simpl. by eexists.
Qed.

(** ** Running the generators *)

Lemma run_0 g st : run 0 g st = ([], Some g, st).
Proof. done. Qed.

Lemma run_S_Some n g st evs g' st' :
  step g st = Some (evs, g', st') →
  run (S n) g st
  = ((evs ++ (run n g' st').1.1), (run n g' st').1.2, (run n g' st').2).
Proof.
  intros H. simpl. rewrite H.
  by destruct (run n g' st') as [[? ?] ?].
Qed.

(** Running [n + m] steps is running [n] and then [m] more. *)
Lemma run_add n m g st evs g' st' :
  run n g st = (evs, Some g', st') →
  run (n + m) g st
  = ((evs ++ (run m g' st').1.1), (run m g' st').1.2, (run m g' st').2).
Proof.
  revert g st evs; induction n as [|n IH]; intros g st evs H.
  - rewrite run_0 in H. simplify_eq. simpl.
    by destruct (run m g' st') as [[? ?] ?].
  - simpl in H. destruct (step g st) as [[[e1 g1] st1]|] eqn:Hs; [|done].
    destruct (run n g1 st1) as [[e2 og2] st2] eqn:Hr. simplify_eq.
    change (S n + m) with (S (n + m)).
    rewrite (run_S_Some _ _ _ _ _ _ Hs), (IH _ _ _ Hr). simpl.
    by rewrite (assoc_L (++)).
Qed.

(** The sleeping loop of [ai_response_generator]. *)
Lemma run_ai_heartbeat k msg st :
  run (2 * k) (GenAi (AiBeat msg)) st
  = (heartbeat msg k, Some (GenAi (AiBeat msg)), st).
Proof.
  induction k as [|k IH]; [done|].
  replace (2 * S k) with (S (S (2 * k))) by lia.
  rewrite (run_S_Some _ _ _ [EvYield msg] (GenAi (AiSleep msg)) st) by done.
  rewrite (run_S_Some _ _ _ [EvSleep 10] (GenAi (AiBeat msg)) st) by done.
  by rewrite IH.
Qed.

(** The sleeping loop of [empty_response]. *)
Lemma run_empty_heartbeat k msg st :
  run (2 * k) (GenEmpty (EmBeat msg)) st
  = (heartbeat msg k, Some (GenEmpty (EmBeat msg)), st).
Proof.
  induction k as [|k IH]; [done|].
  replace (2 * S k) with (S (S (2 * k))) by lia.
  rewrite (run_S_Some _ _ _ [EvYield msg] (GenEmpty (EmSleep msg)) st)
    by done.
  rewrite (run_S_Some _ _ _ [EvSleep 10] (GenEmpty (EmBeat msg)) st)
    by done.
  by rewrite IH.
Qed.

Lemma frames_yields (l : list string) : frames (EvYield <$> l) = l.
Proof.
  unfold frames. induction l as [|x l IH]; simpl; [done | by f_equal].
Qed.

Lemma frames_app (e1 e2 : list event) :
  frames (e1 ++ e2) = frames e1 ++ frames e2.
Proof. apply omap_app. Qed.

Lemma frames_heartbeat msg k : frames (heartbeat msg k) = replicate k msg.
Proof.
  unfold heartbeat, frames.
  induction k as [|k IH]; simpl; [done | by f_equal].
Qed.

(** Inside the loop every step produces one event, every frame is the held
    one, the shared state is not touched and the loop is never left. *)
Lemma run_in_loop n msg g st :
  in_loop msg g →
  ∃ evs g',
    run n g st = (evs, Some g', st)
    ∧ in_loop msg g'
    ∧ length evs = n
    ∧ Forall (fun m => m = msg) (frames evs).
Proof.
  revert g; induction n as [|n IH]; intros g Hg.
  - exists [], g. by split_and!.
  - assert (∃ e g1, step g st = Some ([e], g1, st) ∧ in_loop msg g1
                    ∧ Forall (fun m => m = msg) (frames [e]))
      as (e & g1 & Hs & Hg1 & He).
    { destruct g as [[|m|m]|[p u|o m u|m|m]]; simpl in Hg; try done;
        subst m; eexists _, _; (split_and!; [done | done |]);
        unfold frames; simpl; by repeat constructor. }
    destruct (IH g1 Hg1) as (evs & g' & Hr & Hg' & Hlen & Hfr).
    exists (e :: evs), g'.
    split_and!.
    + by rewrite (run_S_Some _ _ _ _ _ _ Hs), Hr.
    + done.
    + simpl. by rewrite Hlen.
    + change (e :: evs) with ([e] ++ evs).
      rewrite frames_app. by apply Forall_app.
Qed.

(** The [for chunk in ...] loop: one step per chunk, a frame for each
    token with content, the accumulated output and the last frame kept
    in the control state. *)
Lemma run_stream upstream output msg st :
  run (length upstream) (GenAi (AiStream output msg upstream)) st
  = (EvYield <$> (sse_frame <$> accumulate output (tokens upstream)),
     Some (GenAi (AiStream
             (output +:+ concat_strings (tokens upstream))
             (default msg (last (sse_frame <$>
                                   accumulate output (tokens upstream))))
             [])),
     st).
Proof.
  revert output msg; induction upstream as [|c upstream IH];
    intros output msg.
  - simpl. by rewrite append_empty_r.
  - change (length (c :: upstream)) with (S (length upstream)).
    destruct (truthy (or_empty c)) eqn:Ht.
    + rewrite (run_S_Some _ _ _
                 [EvYield (sse_frame (output +:+ or_empty c))]
                 (GenAi (AiStream (output +:+ or_empty c)
                           (sse_frame (output +:+ or_empty c)) upstream))
                 st)
        by (simpl; by rewrite Ht).
      rewrite IH, (tokens_cons_content _ _ Ht). simpl.
      rewrite append_assoc. do 3 f_equal.
      rewrite last_cons. by destruct (last _).
    + rewrite (run_S_Some _ _ _ []
                 (GenAi (AiStream output msg upstream)) st)
        by (simpl; by rewrite Ht).
      by rewrite IH, (tokens_cons_empty _ _ Ht).
Qed.

(** From creation to the sleeping loop, for a stream that completes. *)
Lemma run_generation st prompt upstream messages :
  mistral_messages st prompt = Some messages →
  run (completion_steps upstream) (ai_response_generator prompt upstream) st
  = (EvChatStream "mistral-small" messages
       :: (EvYield <$> content_frames prompt upstream),
     Some (GenAi (AiBeat
             (default EmptyString (last (content_frames prompt upstream))))),
     append_history (final_output prompt upstream) st).
Proof.
  intros Hm. unfold completion_steps, ai_response_generator.
  replace (2 + length upstream) with (S (length upstream + 1)) by lia.
  rewrite (run_S_Some _ _ _ [EvChatStream "mistral-small" messages]
             (GenAi (AiStream (initial_output prompt) EmptyString upstream))
             st)
    by (simpl; by rewrite Hm).
  rewrite (run_add _ 1 _ _ _ _ _ (run_stream upstream _ _ st)).
  simpl. by rewrite app_nil_r.
Qed.

(** Every accumulated output is the initial one followed by a prefix of
    the tokens. *)
Lemma accumulate_prefixes output toks :
  accumulate output toks
  = (fun k => output +:+ concat_strings (take k toks))
      <$> seq 1 (length toks).
Proof.
  revert output; induction toks as [|t toks IH]; intros output; [done|].
  simpl. rewrite append_empty_r. f_equal.
  rewrite IH, <- (fmap_S_seq 1), <- list_fmap_compose.
  apply list_fmap_ext. intros _ k _. simpl. by rewrite append_assoc.
Qed.

(** ** Prompt assembly *)

Lemma prompt_template_lines history prompt :
  prompt_template history prompt
  = "Previous messages:" +:+ nl
    +:+ concat_strings (history_line <$> history)
    +:+ "Human: " +:+ prompt.
Proof.
  unfold prompt_template.
  rewrite (fold_left_append history_line). by rewrite !append_assoc.
Qed.

Lemma mistral_messages_last st prompt messages :
  mistral_messages st prompt = Some messages →
  last messages
  = Some {| role := "user";
            content := prompt_template (message_history st) prompt |}.
Proof.
  unfold mistral_messages. intros H.
  destruct (system_information st !! key_systems); [|done].
  destruct (system_information st !! key_observations); [|done].
  destruct (system_information st !! key_errors); [|done].
  simpl in H. by simplify_eq.
Qed.

(** C2. Whenever the prompt assembler produces its message list, the last
    message is a user-role message whose content is the header line
    [Previous messages:], then every history entry's message in list order,
    each followed by a line feed, then [Human: ] and the prompt.  For the
    onboarding answers A, B, C, the history X, Y and the prompt Z this is
    the header line, the line X, the line Y and [Human: Z]. *)
Theorem final_message_replays_history
    (st : app_state) (prompt : string) (messages : list ChatMessage) :
  mistral_messages st prompt = Some messages →
  last messages
  = Some {| role := "user";
            content :=
              "Previous messages:" +:+ nl
              +:+ concat_strings (history_line <$> message_history st)
              +:+ "Human: " +:+ prompt |}
  ∧ (content <$> (mistral_messages sample_state "Z" ≫= last))
    = Some ("Previous messages:" +:+ nl
            +:+ "X" +:+ nl +:+ "Y" +:+ nl +:+ "Human: Z").
Proof.
  intros H. split; [|done].
  by rewrite (mistral_messages_last _ _ _ H), prompt_template_lines.
Qed.

(** C3. When the three onboarding values are [systems], [observations] and
    [errors], the prompt assembler produces exactly eight messages: the
    fixed system instruction, then for systems, observations and errors in
    that order a fixed assistant question followed by a user message
    holding the value, then the user message with the replayed history and
    the prompt. *)
Theorem assembler_emits_eight_messages
    (st : app_state) (prompt systems observations errors : string) :
  system_information st !! key_systems = Some systems →
  system_information st !! key_observations = Some observations →
  system_information st !! key_errors = Some errors →
  mistral_messages st prompt
  = Some
      [ {| role := "system"; content := system_message |};
        {| role := "assistant";
           content := "What systems are you using for your Application?" |};
        {| role := "user"; content := systems |};
        {| role := "assistant";
           content :=
             "What are your initial observations for you incident?" |};
        {| role := "user"; content := observations |};
        {| role := "assistant";
           content := "Have you had any initial error messages?" |};
        {| role := "user"; content := errors |};
        {| role := "user";
           content := prompt_template (message_history st) prompt |} ]
  ∧ (length <$> mistral_messages st prompt) = Some 8.
Proof.
  intros Hs Ho He. unfold mistral_messages. by rewrite Hs, Ho, He.
Qed.

(** ** Reset *)

(** C7. [api_index] with [reset] set leaves an empty history whatever its
    length was and the same onboarding dictionary, so the same three
    onboarding values; with [reset] false, its default, the whole state and
    so the history is unchanged. *)
Theorem reset_clears_history_only (chat : option string) (st : app_state) :
  message_history (api_index chat true st).2 = []
  ∧ system_information (api_index chat true st).2 = system_information st
  ∧ (∀ key, system_information (api_index chat true st).2 !! key
            = system_information st !! key)
  ∧ (api_index chat false st).2 = st
  ∧ message_history (api_index chat false st).2 = message_history st.
Proof. done. Qed.

(** ** The generation phase *)

Lemma frames_generation st prompt upstream :
  has_onboarding_keys st →
  frames (run (completion_steps upstream)
            (ai_response_generator prompt upstream) st).1.1
  = content_frames prompt upstream.
Proof.
  intros Hk. destruct (mistral_messages_is_Some st prompt Hk) as [ms Hm].
  rewrite (run_generation _ _ _ _ Hm). simpl.
  change (frames (EvYield <$> content_frames prompt upstream)
          = content_frames prompt upstream).
  apply frames_yields.
Qed.

Lemma step_token_with_content output msg s rest st :
  s ≠ EmptyString →
  step (GenAi (AiStream output msg (Some s :: rest))) st
  = Some ([EvYield (sse_frame (output +:+ s))],
          GenAi (AiStream (output +:+ s) (sse_frame (output +:+ s)) rest),
          st).
Proof. intros Hs. by destruct s. Qed.

Lemma step_token_without_content output msg c rest st :
  c = None ∨ c = Some EmptyString →
  step (GenAi (AiStream output msg (c :: rest))) st
  = Some ([], GenAi (AiStream output msg rest), st).
Proof. by intros [-> | ->]. Qed.

(** C1. In the generation path, a chunk whose content is a non-empty text
    extends the accumulated output by that text and makes the generator
    yield exactly one frame, the rendering of the whole accumulated output;
    a chunk whose content is absent or empty yields nothing and leaves the
    output as it was.  Over a whole stream the frames are therefore, for
    k = 1, 2, ..., the renderings of the initial output followed by the
    first k tokens that carry content.  For the chunks Hello, the empty
    text and [ world] there are two frames, and the second renders the
    output of the first followed by [ world]. *)
Theorem relay_emits_accumulated_output
    (st : app_state) (prompt : string) (upstream : list chunk) :
  has_onboarding_keys st →
  (∀ output msg s rest, s ≠ EmptyString →
     step (GenAi (AiStream output msg (Some s :: rest))) st
     = Some ([EvYield (sse_frame (output +:+ s))],
             GenAi (AiStream (output +:+ s) (sse_frame (output +:+ s)) rest),
             st))
  ∧ (∀ output msg c rest, c = None ∨ c = Some EmptyString →
       step (GenAi (AiStream output msg (c :: rest))) st
       = Some ([], GenAi (AiStream output msg rest), st))
  ∧ frames (run (completion_steps upstream)
              (ai_response_generator prompt upstream) st).1.1
    = (fun k => sse_frame (initial_output prompt
                           +:+ concat_strings (take k (tokens upstream))))
        <$> seq 1 (length (tokens upstream))
  ∧ frames (run (completion_steps [Some "Hello"; Some EmptyString;
                                   Some " world"])
              (ai_response_generator prompt
                 [Some "Hello"; Some EmptyString; Some " world"]) st).1.1
    = [ sse_frame (initial_output prompt +:+ "Hello");
        sse_frame ((initial_output prompt +:+ "Hello") +:+ " world") ].
Proof.
  intros Hk. split_and!.
  - intros. by apply step_token_with_content.
  - intros. by apply step_token_without_content.
  - rewrite (frames_generation _ _ _ Hk). unfold content_frames.
    by rewrite accumulate_prefixes, <- list_fmap_compose.
  - by rewrite (frames_generation _ _ _ Hk).
Qed.

(** ** The sleeping loop *)

Lemma sse_frame_not_empty text : sse_frame text ≠ EmptyString.
Proof. done. Qed.

Lemma heartbeat_S msg k :
  heartbeat msg (S k) = EvYield msg :: EvSleep 10 :: heartbeat msg k.
Proof. done. Qed.

Lemma run_empty_response k st :
  run (1 + 2 * k) empty_response st
  = (EvYield (sse_frame EmptyString) :: heartbeat (sse_frame EmptyString) k,
     Some (GenEmpty (EmBeat (sse_frame EmptyString))), st).
Proof.
  change (1 + 2 * k) with (S (2 * k)). unfold empty_response.
  rewrite (run_S_Some _ _ _ [EvYield (sse_frame EmptyString)]
             (GenEmpty (EmBeat (sse_frame EmptyString))) st) by done.
  by rewrite run_empty_heartbeat.
Qed.

Lemma run_generation_heartbeat st prompt upstream messages k :
  mistral_messages st prompt = Some messages →
  run (completion_steps upstream + 2 * k)
    (ai_response_generator prompt upstream) st
  = ((EvChatStream "mistral-small" messages
        :: (EvYield <$> content_frames prompt upstream))
     ++ heartbeat
          (default EmptyString (last (content_frames prompt upstream))) k,
     Some (GenAi (AiBeat
             (default EmptyString (last (content_frames prompt upstream))))),
     append_history (final_output prompt upstream) st).
Proof.
  intros Hm.
  rewrite (run_add _ (2 * k) _ _ _ _ _ (run_generation _ _ upstream _ Hm)).
  by rewrite run_ai_heartbeat.
Qed.

Lemma tokens_without_content upstream :
  Forall (fun c => c = None ∨ c = Some EmptyString) upstream →
  tokens upstream = [].
Proof.
  induction 1 as [|c upstream Hc _ IH]; [done|].
  rewrite tokens_cons_empty; [done|]. by destruct Hc as [-> | ->].
Qed.

(** C4. When the prompt is absent, empty or the text [None],
    [sse_ai_response] serves [empty_response]: the first frame renders the
    empty text, and however many rounds of the loop are followed, every
    later frame is that same frame and the generator is still in its
    loop.  More generally, after any number [n] of further steps there are
    [n] further events, the generator has not ended and every further
    frame is the first one. *)
Theorem empty_prompt_repeats_first_frame
    (prompt : option string) (upstream : list chunk) (st : app_state)
    (k : nat) :
  prompt = None ∨ prompt = Some EmptyString ∨ prompt = Some "None" →
  sse_ai_response prompt upstream = empty_response
  ∧ run (1 + 2 * k) (sse_ai_response prompt upstream) st
    = (EvYield (sse_frame EmptyString)
         :: heartbeat (sse_frame EmptyString) k,
       Some (GenEmpty (EmBeat (sse_frame EmptyString))), st)
  ∧ frames (run (1 + 2 * k) (sse_ai_response prompt upstream) st).1.1
    = replicate (S k) (sse_frame EmptyString)
  ∧ (∀ n, ∃ later g,
       run (1 + n) (sse_ai_response prompt upstream) st
       = (EvYield (sse_frame EmptyString) :: later, Some g, st)
       ∧ length later = n
       ∧ Forall (fun m => m = sse_frame EmptyString) (frames later)).
Proof.
  intros Hp.
  assert (sse_ai_response prompt upstream = empty_response) as ->
    by (by destruct Hp as [-> | [-> | ->]]).
  rewrite run_empty_response. split_and!; [done..| |].
  - simpl. change (frames (EvYield (sse_frame EmptyString)
                             :: heartbeat (sse_frame EmptyString) k))
      with (sse_frame EmptyString
              :: frames (heartbeat (sse_frame EmptyString) k)).
    by rewrite frames_heartbeat.
  - intros n.
    destruct (run_in_loop n (sse_frame EmptyString)
                (GenEmpty (EmBeat (sse_frame EmptyString))) st eq_refl)
      as (later & g & Hr & _ & Hlen & Hfr).
    exists later, g. split_and!; [|done..].
    change (1 + n) with (S n). unfold empty_response.
    rewrite (run_S_Some _ _ _ [EvYield (sse_frame EmptyString)]
               (GenEmpty (EmBeat (sse_frame EmptyString))) st) by done.
    by rewrite Hr.
Qed.

(** C5. Once the provider stream has completed, if [f] is the last frame
    yielded during generation then the generator sits in its loop holding
    [f], and following the loop for any number [k] of rounds adds to the
    events exactly [k] times the frame [f] followed by a wait of 10; the
    generator is then again at the head of the loop.  Three rounds are
    spelled out.  More generally, after any number [n] of further steps
    there are [n] further events, the generator has not ended and every
    further frame is [f]. *)
Theorem heartbeat_repeats_last_content_frame
    (st : app_state) (prompt : string) (upstream : list chunk)
    (f : string) (k : nat) :
  has_onboarding_keys st →
  last (frames (run (completion_steps upstream)
                  (ai_response_generator prompt upstream) st).1.1)
  = Some f →
  (run (completion_steps upstream)
     (ai_response_generator prompt upstream) st).1.2
  = Some (GenAi (AiBeat f))
  ∧ run (completion_steps upstream + 2 * k)
      (ai_response_generator prompt upstream) st
    = ((run (completion_steps upstream)
          (ai_response_generator prompt upstream) st).1.1
       ++ heartbeat f k,
       Some (GenAi (AiBeat f)),
       (run (completion_steps upstream)
          (ai_response_generator prompt upstream) st).2)
  ∧ frames (heartbeat f k) = replicate k f
  ∧ heartbeat f 3
    = [ EvYield f; EvSleep 10; EvYield f; EvSleep 10;
        EvYield f; EvSleep 10 ]
  ∧ (∀ n, ∃ later g,
       run (completion_steps upstream + n)
         (ai_response_generator prompt upstream) st
       = ((run (completion_steps upstream)
             (ai_response_generator prompt upstream) st).1.1 ++ later,
          Some g,
          (run (completion_steps upstream)
             (ai_response_generator prompt upstream) st).2)
       ∧ length later = n
       ∧ Forall (fun m => m = f) (frames later)).
Proof.
  intros Hk Hf. rewrite (frames_generation _ _ _ Hk) in Hf.
  destruct (mistral_messages_is_Some st prompt Hk) as [ms Hm].
  rewrite (run_generation_heartbeat _ _ _ _ k Hm).
  split_and!.
  - by rewrite (run_generation _ _ _ _ Hm), Hf.
  - by rewrite (run_generation _ _ _ _ Hm), Hf.
  - apply frames_heartbeat.
  - done.
  - intros n.
    destruct (run_in_loop n f (GenAi (AiBeat f))
                (append_history (final_output prompt upstream) st) eq_refl)
      as (later & g & Hr & _ & Hlen & Hfr).
    exists later, g. split_and!; [|done..].
    rewrite (run_add _ n _ _ _ _ _ (run_generation _ _ upstream _ Hm)).
    rewrite (run_generation _ _ _ _ Hm), Hf. simpl. by rewrite Hr.
Qed.

(** C9. When the provider stream completes and none of its chunks carried
    content, the generation phase yields no frame, the history gains one
    entry whose message is the user line, a blank line and the bare
    chatbot label, and every round of the loop yields the empty text, which
    is not the rendering of any output. *)
Theorem silent_stream_heartbeat_is_empty_text
    (st : app_state) (prompt : string) (upstream : list chunk) (k : nat) :
  has_onboarding_keys st →
  Forall (fun c => c = None ∨ c = Some EmptyString) upstream →
  frames (run (completion_steps upstream)
            (ai_response_generator prompt upstream) st).1.1 = []
  ∧ message_history
      (run (completion_steps upstream)
         (ai_response_generator prompt upstream) st).2
    = message_history st
      ++ [{| message :=
               "**User:** " +:+ prompt +:+ nl +:+ nl +:+ "**Chatbot:** " |}]
  ∧ run (completion_steps upstream + 2 * k)
      (ai_response_generator prompt upstream) st
    = ((run (completion_steps upstream)
          (ai_response_generator prompt upstream) st).1.1
       ++ heartbeat EmptyString k,
       Some (GenAi (AiBeat EmptyString)),
       (run (completion_steps upstream)
          (ai_response_generator prompt upstream) st).2)
  ∧ frames (heartbeat EmptyString k) = replicate k EmptyString
  ∧ (∀ text, sse_frame text ≠ EmptyString).
Proof.
  intros Hk Hup.
  destruct (mistral_messages_is_Some st prompt Hk) as [ms Hm].
  rewrite (run_generation_heartbeat _ _ _ _ k Hm).
  rewrite (run_generation _ _ _ _ Hm).
  unfold content_frames, final_output.
  rewrite (tokens_without_content _ Hup). simpl.
  split_and!; [done | | done | apply frames_heartbeat
               | apply sse_frame_not_empty].
  unfold initial_output. by rewrite append_empty_r, !append_assoc.
Qed.

Lemma generation_never_sleeps st prompt upstream messages :
  mistral_messages st prompt = Some messages →
  Forall (fun e => ∀ delay, e ≠ EvSleep delay)
    (run (completion_steps upstream)
       (ai_response_generator prompt upstream) st).1.1.
Proof.
  intros Hm. rewrite (run_generation _ _ _ _ Hm). simpl.
  constructor; [done|].
  apply Forall_fmap, Forall_forall. by intros.
Qed.

(** C10. Both generators enter their loop by yielding at once and wait 10
    only after each yield.  For [empty_response] the first three events are
    the frame, the same frame again and then the first wait.  For
    [ai_response_generator] no wait occurs before the stream has completed,
    the two events that follow are the held frame and a wait of 10, and
    when a frame was yielded during generation the held frame is the last
    of them, which is also the last event before the loop.  In both loops
    every further round is again a frame followed by a wait of 10. *)
Theorem heartbeat_yields_before_waiting
    (st : app_state) (prompt : string) (upstream : list chunk) (k : nat) :
  has_onboarding_keys st →
  (run 3 empty_response st).1.1
  = [ EvYield (sse_frame EmptyString); EvYield (sse_frame EmptyString);
      EvSleep 10 ]
  ∧ (∀ msg, run (2 * S k) (GenEmpty (EmBeat msg)) st
            = (EvYield msg :: EvSleep 10 :: heartbeat msg k,
               Some (GenEmpty (EmBeat msg)), st))
  ∧ (∀ msg, run (2 * S k) (GenAi (AiBeat msg)) st
            = (EvYield msg :: EvSleep 10 :: heartbeat msg k,
               Some (GenAi (AiBeat msg)), st))
  ∧ Forall (fun e => ∀ delay, e ≠ EvSleep delay)
      (run (completion_steps upstream)
         (ai_response_generator prompt upstream) st).1.1
  ∧ (∃ msg,
       (run (completion_steps upstream)
          (ai_response_generator prompt upstream) st).1.2
       = Some (GenAi (AiBeat msg))
       ∧ (run (completion_steps upstream + 2)
            (ai_response_generator prompt upstream) st).1.1
         = (run (completion_steps upstream)
              (ai_response_generator prompt upstream) st).1.1
           ++ [EvYield msg; EvSleep 10]
       ∧ (∀ f, last (frames (run (completion_steps upstream)
                               (ai_response_generator prompt upstream)
                               st).1.1) = Some f →
               msg = f
               ∧ last (run (completion_steps upstream)
                         (ai_response_generator prompt upstream) st).1.1
                 = Some (EvYield f))).
Proof.
  intros Hk.
  destruct (mistral_messages_is_Some st prompt Hk) as [ms Hm].
  split_and!.
  - done.
  - intros msg. by rewrite run_empty_heartbeat.
  - intros msg. by rewrite run_ai_heartbeat.
  - by eapply generation_never_sleeps.
  - eexists. split_and!.
    + by rewrite (run_generation _ _ _ _ Hm).
    + change 2 with (2 * 1) at 1.
      rewrite (run_generation_heartbeat _ _ _ _ 1 Hm).
      by rewrite (run_generation _ _ _ _ Hm).
    + intros f Hf. rewrite (frames_generation _ _ _ Hk) in Hf.
      rewrite (run_generation _ _ _ _ Hm), Hf. split; [done|]. simpl.
      rewrite last_cons, fmap_last, Hf. done.
Qed.

(** ** The history across requests *)

Lemma step_history g st evs g' st' :
  step g st = Some (evs, g', st') →
  system_information st' = system_information st
  ∧ (message_history st' = message_history st
     ∨ ∃ output,
         message_history st'
         = message_history st ++ [{| message := output |}]).
Proof.
  destruct g as [pc|pc]; simpl.
  - destruct (empty_step pc) as [evs0 pc0]. intros ?; simplify_eq. auto.
  - destruct pc as [prompt upstream|output msg [|c upstream]|msg|msg]; simpl.
    + destruct (mistral_messages st prompt); simpl; intros ?; simplify_eq.
      auto.
    + intros ?; simplify_eq. split; [done|]. right. by eexists.
    + destruct (truthy (or_empty c)); simpl; intros ?; simplify_eq; auto.
    + intros ?; simplify_eq. auto.
    + intros ?; simplify_eq. auto.
Qed.

Lemma run_history n g st :
  ∃ suffix,
    message_history (run n g st).2 = message_history st ++ suffix.
Proof.
  revert g st; induction n as [|n IH]; intros g st.
  - exists []. simpl. by rewrite app_nil_r.
  - simpl. destruct (step g st) as [[[evs g'] st']|] eqn:Hs.
    + destruct (IH g' st') as [suffix Hsuffix].
      destruct (run n g' st') as [[evs' og] st'']. simpl in *.
      destruct (step_history _ _ _ _ _ Hs) as [_ [Hh | [output Hh]]];
        rewrite Hsuffix, Hh.
      * by eexists.
      * rewrite <- (assoc_L (++)). by eexists.
    + exists []. simpl. by rewrite app_nil_r.
Qed.

Lemma run_empty_state n pc st : (run n (GenEmpty pc) st).2 = st.
Proof.
  revert pc; induction n as [|n IH]; intros pc; [done|].
  simpl. destruct (empty_step pc) as [evs pc'].
  specialize (IH pc'). by destruct (run n (GenEmpty pc') st) as [[? ?] ?].
Qed.

Lemma run_system_information n g st :
  system_information (run n g st).2 = system_information st.
Proof.
  revert g st; induction n as [|n IH]; intros g st; [done|].
  simpl. destruct (step g st) as [[[evs g'] st']|] eqn:Hs; [|done].
  specialize (IH g' st').
  destruct (run n g' st') as [[evs' og] st'']. simpl in *.
  destruct (step_history _ _ _ _ _ Hs) as [Hi _]. congruence.
Qed.

(** Every state the requests can produce from the initial one has the
    three dictionary keys. *)
Lemma serve_keys r st :
  has_onboarding_keys st → has_onboarding_keys (serve r st).
Proof.
  intros Hk. destruct r as [chat reset|a b c|prompt upstream].
  - by apply (api_index_keys chat reset).
  - apply update_initial_information_keys.
  - unfold has_onboarding_keys, serve.
    by rewrite run_system_information.
Qed.


Lemma sse_ai_response_active prompt upstream :
  sse_ai_response prompt upstream
  = match active_prompt prompt with
    | Some p => ai_response_generator p upstream
    | None => empty_response
    end.
Proof.
  destruct prompt as [p|]; [|done]. simpl.
  by destruct (bool_decide (p = EmptyString) || bool_decide (p = "None")).
Qed.

(** The entries a request adds to the history. *)
Lemma serve_history r st :
  has_onboarding_keys st →
  (∀ chat, r ≠ ReqIndex chat true) →
  has_onboarding_keys (serve r st)
  ∧ message_history (serve r st)
    = message_history st
      ++ ((fun s => {| message := final_output s.1 s.2 |})
            <$> active_streams [r]).
Proof.
  intros Hk Hr. destruct r as [chat reset|a b c|prompt upstream].
  - destruct reset; [by destruct (Hr chat)|].
    simpl. by rewrite app_nil_r.
  - split; [apply update_initial_information_keys|].
    simpl. by rewrite app_nil_r.
  - assert (active_streams [ReqSse prompt upstream]
            = match active_prompt prompt with
              | Some p => [(p, upstream)]
              | None => []
              end) as ->
      by (unfold active_streams; simpl; by destruct (active_prompt prompt)).
    unfold serve. rewrite sse_ai_response_active.
    destruct (active_prompt prompt) as [p|].
    + destruct (mistral_messages_is_Some st p Hk) as [ms Hm].
      by rewrite (run_generation _ _ _ _ Hm).
    + unfold empty_response. rewrite run_empty_state.
      by rewrite app_nil_r.
Qed.

Lemma active_streams_cons r rs :
  active_streams (r :: rs) = active_streams [r] ++ active_streams rs.
Proof. unfold active_streams. by rewrite <- omap_app. Qed.

Lemma serve_all_history rs st :
  has_onboarding_keys st →
  without_reset rs →
  message_history (serve_all rs st)
  = message_history st
    ++ ((fun s => {| message := final_output s.1 s.2 |})
          <$> active_streams rs).
Proof.
  intros Hk Hrs. revert st Hk.
  induction Hrs as [|r rs Hr _ IH]; intros st Hk.
  - simpl. by rewrite app_nil_r.
  - destruct (serve_history r st Hk Hr) as [Hk' Hh].
    change (serve_all (r :: rs) st) with (serve_all rs (serve r st)).
    rewrite (IH _ Hk'), Hh, (active_streams_cons r rs), fmap_app.
    by rewrite (assoc_L (++)).
Qed.

Lemma final_output_prefix prompt upstream :
  ∃ rest, final_output prompt upstream = "**User:** " +:+ prompt +:+ rest.
Proof.
  exists (nl +:+ nl +:+ "**Chatbot:** "
          +:+ concat_strings (tokens upstream)).
  unfold final_output, initial_output. by rewrite !append_assoc.
Qed.

(** C6. Starting from an empty history, after any sequence of requests none
    of which resets, each streaming request followed to the completion of
    its provider stream, the history has exactly one entry per prompt that
    took the generation path, and the i-th entry's message starts with the
    user label followed by the i-th such prompt.  When every request is a
    streaming request with such a prompt, that is one entry per request. *)
Theorem history_records_each_prompt (rs : list request) (st : app_state) :
  has_onboarding_keys st →
  message_history st = [] →
  without_reset rs →
  length (message_history (serve_all rs st)) = length (active_streams rs)
  ∧ (∀ i p upstream,
       active_streams rs !! i = Some (p, upstream) →
       ∃ m rest,
         message_history (serve_all rs st) !! i = Some m
         ∧ message m = "**User:** " +:+ p +:+ rest)
  ∧ (Forall (fun r => ∃ p upstream,
                 r = ReqSse (Some p) upstream
                 ∧ p ≠ EmptyString ∧ p ≠ "None") rs →
     length (message_history (serve_all rs st)) = length rs).
Proof.
  intros Hk Hempty Hrs.
  rewrite (serve_all_history _ _ Hk Hrs), Hempty. simpl.
  split_and!.
  - by rewrite length_fmap.
  - intros i p upstream Hi.
    destruct (final_output_prefix p upstream) as [rest Hrest].
    exists {| message := final_output p upstream |}, rest.
    split; [|done]. by rewrite list_lookup_fmap, Hi.
  - intros Hall. rewrite length_fmap. clear Hrs.
    induction Hall as [|r rs (p & upstream & -> & Hp1 & Hp2) _ IH];
      [done|].
    rewrite active_streams_cons, length_app, IH.
    unfold active_streams. simpl.
    by rewrite !bool_decide_eq_false_2.
Qed.

(** C8. No step of a generator and no request reorders the history: a step
    leaves it as it was or adds one entry at its end, a request leaves a
    history that extends the previous one at its end, unless it is an index
    request with [reset] set, which leaves it empty.  The prompt assembler
    replays the history in list order: for a history made of an earlier
    part followed by a later part, the lines of the earlier part come
    first, then those of the later part, then the new prompt. *)
Theorem history_order_is_insertion_order :
  (∀ g st evs g' st',
     step g st = Some (evs, g', st') →
     message_history st' = message_history st
     ∨ ∃ output,
         message_history st'
         = message_history st ++ [{| message := output |}])
  ∧ (∀ r st,
       (∃ suffix,
          message_history (serve r st) = message_history st ++ suffix)
       ∨ ((∃ chat, r = ReqIndex chat true)
          ∧ message_history (serve r st) = []))
  ∧ (∀ earlier later prompt,
       prompt_template (earlier ++ later) prompt
       = "Previous messages:" +:+ nl
         +:+ concat_strings (history_line <$> earlier)
         +:+ concat_strings (history_line <$> later)
         +:+ "Human: " +:+ prompt).
Proof.
  split_and!.
  - intros g st evs g' st' Hs. by destruct (step_history _ _ _ _ _ Hs).
  - intros r st. destruct r as [chat [|]|a b c|prompt upstream].
    + right. split; [by eexists | done].
    + left. exists []. simpl. by rewrite app_nil_r.
    + left. exists []. simpl. by rewrite app_nil_r.
    + left. apply run_history.
  - intros earlier later prompt.
    rewrite prompt_template_lines, fmap_app, concat_strings_app.
    by rewrite !append_assoc.
Qed.

(** ** Onboarding answers *)

Lemma onboarding_inserts_lookup (m : gmap string string) a b c k :
  (<[key_errors := c]>
     (<[key_observations := b]> (<[key_systems := a]> m))) !! k
  = if decide (k = key_errors) then Some c
    else if decide (k = key_observations) then Some b
    else if decide (k = key_systems) then Some a
    else m !! k.
Proof.
  rewrite !lookup_insert. repeat case_decide; congruence.
Qed.

Lemma onboarding_inserts_overwrite (m : gmap string string) a b c a' b' c' :
  <[key_errors := c]>
    (<[key_observations := b]>
       (<[key_systems := a]>
          (<[key_errors := c']>
             (<[key_observations := b']> (<[key_systems := a']> m)))))
  = <[key_errors := c]>
      (<[key_observations := b]> (<[key_systems := a]> m)).
Proof.
  apply map_eq. intros k. rewrite !onboarding_inserts_lookup.
  by repeat case_decide.
Qed.

(** X1. [update_initial_information] stores the three submitted answers
    under their keys, leaves every other key and the history as they were,
    and a later submission replaces an earlier one entirely. *)
Theorem update_initial_information_overwrites
    (a b c : string) (st : app_state) :
  system_information (update_initial_information a b c st) !! key_systems
  = Some a
  ∧ system_information (update_initial_information a b c st)
      !! key_observations = Some b
  ∧ system_information (update_initial_information a b c st) !! key_errors
    = Some c
  ∧ (∀ k, k ≠ key_systems → k ≠ key_observations → k ≠ key_errors →
          system_information (update_initial_information a b c st) !! k
          = system_information st !! k)
  ∧ message_history (update_initial_information a b c st)
    = message_history st
  ∧ (∀ a' b' c',
       update_initial_information a b c
         (update_initial_information a' b' c' st)
       = update_initial_information a b c st).
Proof.
  unfold update_initial_information. simpl. split_and!.
  - by rewrite onboarding_inserts_lookup.
  - by rewrite onboarding_inserts_lookup.
  - by rewrite onboarding_inserts_lookup.
  - intros k H1 H2 H3. rewrite onboarding_inserts_lookup.
    by repeat case_decide.
  - done.
  - intros a' b' c'. simpl. by rewrite onboarding_inserts_overwrite.
Qed.

(** X2. Whatever the state was, once the onboarding answers have been
    submitted the prompt assembler succeeds and its third, fifth and
    seventh messages are user messages carrying the submitted answers, in
    the order systems, observations, errors. *)
Theorem submitted_answers_reach_the_prompt
    (a b c prompt : string) (st : app_state) :
  mistral_messages (update_initial_information a b c st) prompt
  = Some
      [ {| role := "system"; content := system_message |};
        {| role := "assistant";
           content := "What systems are you using for your Application?" |};
        {| role := "user"; content := a |};
        {| role := "assistant";
           content :=
             "What are your initial observations for you incident?" |};
        {| role := "user"; content := b |};
        {| role := "assistant";
           content := "Have you had any initial error messages?" |};
        {| role := "user"; content := c |};
        {| role := "user";
           content := prompt_template (message_history st) prompt |} ].
Proof.
  unfold mistral_messages, update_initial_information. simpl.
  rewrite !onboarding_inserts_lookup. done.
Qed.

(** ** The generators never end, unless a key is missing *)





(** X4. If one of the three dictionary keys is missing when
    [ai_response_generator] is first resumed, it ends there: however long
    it is driven there is no provider call, no frame and no wait, and the
    state, in particular the history, is what it was. *)
Theorem missing_key_ends_the_generator
    (st : app_state) (prompt : string) (upstream : list chunk) (n : nat) :
  system_information st !! key_systems = None
  ∨ system_information st !! key_observations = None
  ∨ system_information st !! key_errors = None →
  run (S n) (ai_response_generator prompt upstream) st = ([], None, st).
Proof.
  intros Hmiss.
  assert (mistral_messages st prompt = None) as Hm.
  { unfold mistral_messages.
    destruct (system_information st !! key_systems); simpl;
      [|done].
    destruct (system_information st !! key_observations); simpl;
      [|done].
    destruct (system_information st !! key_errors); simpl; [|done].
    by destruct Hmiss as [? | [? | ?]]. }
  simpl. by rewrite Hm.
Qed.

(** ** A stream that is not followed to its end *)

Lemma run_stream_state n upstream output msg st :
  n ≤ length upstream →
  (run n (GenAi (AiStream output msg upstream)) st).2 = st.
Proof.
  revert upstream output msg; induction n as [|n IH];
    intros upstream output msg Hn; [done|].
  destruct upstream as [|c upstream]; simpl in Hn; [lia|].
  destruct (truthy (or_empty c)) eqn:Ht.
  - rewrite (run_S_Some _ _ _
               [EvYield (sse_frame (output +:+ or_empty c))]
               (GenAi (AiStream (output +:+ or_empty c)
                         (sse_frame (output +:+ or_empty c)) upstream))
               st)
      by (simpl; by rewrite Ht).
    simpl. apply IH. lia.
  - rewrite (run_S_Some _ _ _ []
               (GenAi (AiStream output msg upstream)) st)
      by (simpl; by rewrite Ht).
    simpl. apply IH. lia.
Qed.

(** X5. The history entry is written only when the provider stream has
    completed: as long as [ai_response_generator] has been driven for at
    most one step per chunk beyond its entry, the state is untouched, so a
    stream abandoned before the provider finishes leaves no trace. *)
Theorem abandoned_stream_leaves_no_entry
    (st : app_state) (prompt : string) (upstream : list chunk) (n : nat) :
  n ≤ S (length upstream) →
  (run n (ai_response_generator prompt upstream) st).2 = st.
Proof.
  intros Hn. destruct n as [|n]; [done|].
  unfold ai_response_generator.
  destruct (mistral_messages st prompt) as [ms|] eqn:Hm.
  - rewrite (run_S_Some _ _ _ [EvChatStream "mistral-small" ms]
               (GenAi (AiStream (initial_output prompt) EmptyString
                         upstream)) st)
      by (simpl; by rewrite Hm).
    simpl. apply run_stream_state. lia.
  - simpl. by rewrite Hm.
Qed.

(** ** What the history records *)

Lemma accumulate_last output toks :
  toks ≠ [] →
  last (accumulate output toks) = Some (output +:+ concat_strings toks).
Proof.
  revert output; induction toks as [|t toks IH]; intros output Hne;
    [done|].
  destruct toks as [|t' toks].
  - simpl. by rewrite append_empty_r.
  - change (accumulate output (t :: t' :: toks))
      with ((output +:+ t) :: accumulate (output +:+ t) (t' :: toks)).
    rewrite last_cons, (IH (output +:+ t)) by done.
    simpl. by rewrite append_assoc.
Qed.

(** X6. When the provider delivered at least one token with content, the
    entry appended to the history is exactly the text rendered in the last
    frame of the generation: the user line, the chatbot label and all
    tokens with content in arrival order. *)
Theorem history_entry_is_last_rendered_text
    (st : app_state) (prompt : string) (upstream : list chunk) :
  has_onboarding_keys st →
  tokens upstream ≠ [] →
  message_history
    (run (completion_steps upstream)
       (ai_response_generator prompt upstream) st).2
  = message_history st
    ++ [{| message :=
             initial_output prompt +:+ concat_strings (tokens upstream) |}]
  ∧ last (frames (run (completion_steps upstream)
                    (ai_response_generator prompt upstream) st).1.1)
    = Some (sse_frame
              (initial_output prompt
               +:+ concat_strings (tokens upstream))).
Proof.
  intros Hk Hne. rewrite (frames_generation _ _ _ Hk).
  destruct (mistral_messages_is_Some st prompt Hk) as [ms Hm].
  rewrite (run_generation _ _ _ _ Hm). split; [done|].
  unfold content_frames. by rewrite fmap_last, accumulate_last.
Qed.

(** X7. Streams that differ only in chunks without content are
    indistinguishable: they produce the same frames and leave the same
    state. *)
Theorem chunks_without_content_are_invisible
    (st : app_state) (prompt : string) (upstream1 upstream2 : list chunk) :
  has_onboarding_keys st →
  tokens upstream1 = tokens upstream2 →
  frames (run (completion_steps upstream1)
            (ai_response_generator prompt upstream1) st).1.1
  = frames (run (completion_steps upstream2)
              (ai_response_generator prompt upstream2) st).1.1
  ∧ (run (completion_steps upstream1)
       (ai_response_generator prompt upstream1) st).2
    = (run (completion_steps upstream2)
         (ai_response_generator prompt upstream2) st).2
  ∧ (run (completion_steps upstream1)
       (ai_response_generator prompt upstream1) st).1.2
    = (run (completion_steps upstream2)
         (ai_response_generator prompt upstream2) st).1.2.
Proof.
  intros Hk Ht.
  destruct (mistral_messages_is_Some st prompt Hk) as [ms Hm].
  rewrite !(run_generation _ _ _ _ Hm).
  unfold content_frames, final_output. by rewrite Ht.
Qed.

(** ** Calls to the provider *)

Lemma provider_calls_app (e1 e2 : list event) :
  provider_calls (e1 ++ e2) = provider_calls e1 ++ provider_calls e2.
Proof. apply omap_app. Qed.

Lemma step_past_entry g st evs g' st' :
  past_entry g →
  step g st = Some (evs, g', st') →
  provider_calls evs = [] ∧ past_entry g'.
Proof.
  destruct g as [pc|pc]; simpl.
  - intros _. destruct pc; simpl; intros ?; by simplify_eq.
  - destruct pc as [prompt upstream|output msg [|c upstream]|msg|msg];
      simpl; [done|..]; intros _.
    + intros ?; by simplify_eq.
    + destruct (truthy (or_empty c)); simpl; intros ?; by simplify_eq.
    + intros ?; by simplify_eq.
    + intros ?; by simplify_eq.
Qed.

Lemma run_past_entry n g st :
  past_entry g → provider_calls (run n g st).1.1 = [].
Proof.
  revert g st; induction n as [|n IH]; intros g st Hg; [done|].
  simpl. destruct (step g st) as [[[evs g'] st']|] eqn:Hs; [|done].
  destruct (step_past_entry _ _ _ _ _ Hg Hs) as [Hevs Hg'].
  specialize (IH g' st' Hg').
  destruct (run n g' st') as [[evs' og] st'']. simpl in *.
  by rewrite provider_calls_app, Hevs, IH.
Qed.

(** X8. However long [ai_response_generator] is driven, it calls the
    provider exactly once: the call is its first event, names the model
    [mistral-small] and carries the messages assembled from the state the
    generator found when it was first resumed. *)
Theorem provider_is_called_once
    (st : app_state) (prompt : string) (upstream : list chunk)
    (messages : list ChatMessage) (n : nat) :
  mistral_messages st prompt = Some messages →
  head (run (S n) (ai_response_generator prompt upstream) st).1.1
  = Some (EvChatStream "mistral-small" messages)
  ∧ provider_calls (run (S n) (ai_response_generator prompt upstream) st).1.1
    = [("mistral-small", messages)].
Proof.
  intros Hm. unfold ai_response_generator.
  rewrite (run_S_Some _ _ _ [EvChatStream "mistral-small" messages]
             (GenAi (AiStream (initial_output prompt) EmptyString upstream))
             st)
    by (simpl; by rewrite Hm).
  simpl. split; [done|].
  change (provider_calls
            ([EvChatStream "mistral-small" messages]
             ++ (run n (GenAi (AiStream (initial_output prompt) EmptyString
                                 upstream)) st).1.1)
          = [("mistral-small", messages)]).
  by rewrite provider_calls_app, run_past_entry.
Qed.

(** X9. A streaming request whose prompt is absent, empty or the text
    [None] never calls the provider and never changes the state, however
    long its generator is driven. *)
Theorem empty_prompt_touches_nothing
    (prompt : option string) (upstream : list chunk) (st : app_state)
    (n : nat) :
  active_prompt prompt = None →
  provider_calls (run n (sse_ai_response prompt upstream) st).1.1 = []
  ∧ (run n (sse_ai_response prompt upstream) st).2 = st.
Proof.
  intros Hp. rewrite sse_ai_response_active, Hp. unfold empty_response.
  split; [by apply run_past_entry | apply run_empty_state].
Qed.

(** X10. [sse_ai_response] hands a prompt to [ai_response_generator]
    exactly when it is present, not empty and not the text [None], and then
    hands it over unchanged together with no other prompt. *)
Theorem dispatch_of_prompts
    (prompt : option string) (p : string) (upstream : list chunk) :
  sse_ai_response prompt upstream = ai_response_generator p upstream
  ↔ prompt = Some p ∧ p ≠ EmptyString ∧ p ≠ "None".
Proof.
  rewrite sse_ai_response_active. split.
  - destruct prompt as [q|]; simpl; [|done].
    destruct (bool_decide (q = EmptyString)) eqn:H1;
      destruct (bool_decide (q = "None")) eqn:H2; simpl; try done.
    apply bool_decide_eq_false in H1. apply bool_decide_eq_false in H2.
    intros H. unfold ai_response_generator in H. by simplify_eq.
  - intros (-> & H1 & H2). simpl.
    by rewrite !bool_decide_eq_false_2.
Qed.

(** ** The events a client can see *)

Lemma step_relay_event g st evs g' st' :
  holds_frame g →
  step g st = Some (evs, g', st') →
  Forall relay_event evs ∧ holds_frame g'.
Proof.
  assert (∀ text, relay_event (EvYield (sse_frame text))) as Hframe
    by (intros text; right; by eexists).
  destruct g as [pc|pc]; simpl.
  - destruct pc as [|m|m]; simpl; intros Hg ?; simplify_eq; simpl.
    + split; [by constructor|]. right. by eexists.
    + split; [|done]. constructor; [exact Hg | constructor].
    + split; [|done]. constructor; [done | constructor].
  - destruct pc as [prompt upstream|output msg [|c upstream]|msg|msg];
      simpl; intros Hg.
    + destruct (mistral_messages st prompt); simpl; intros ?; simplify_eq.
      simpl. split; [|by left]. constructor; [done | constructor].
    + intros ?; simplify_eq. by split.
    + destruct (truthy (or_empty c)); simpl; intros ?; simplify_eq; simpl.
      * split; [by constructor|]. right. by eexists.
      * by split.
    + intros ?; simplify_eq. split; [|done].
      constructor; [exact Hg | constructor].
    + intros ?; simplify_eq. split; [|done].
      constructor; [done | constructor].
Qed.

Lemma run_relay_events n g st :
  holds_frame g → Forall relay_event (run n g st).1.1.
Proof.
  revert g st; induction n as [|n IH]; intros g st Hg; [by constructor|].
  simpl. destruct (step g st) as [[[evs g'] st']|] eqn:Hs;
    [|by constructor].
  destruct (step_relay_event _ _ _ _ _ Hg Hs) as [Hevs Hg'].
  specialize (IH g' st' Hg').
  destruct (run n g' st') as [[evs' og] st'']. simpl in *.
  by apply Forall_app.
Qed.

(** X11. Whatever the prompt, the provider stream and the state, every
    event of the relay is a call to the model [mistral-small], a wait of
    exactly 10, or a frame that is either the rendering of some text in the
    [data:] envelope or the empty text. *)
Theorem relay_events_are_well_formed
    (prompt : option string) (upstream : list chunk) (st : app_state)
    (n : nat) :
  Forall relay_event (run n (sse_ai_response prompt upstream) st).1.1.
Proof.
  apply run_relay_events. rewrite sse_ai_response_active.
  by destruct (active_prompt prompt).
Qed.

(** ** How requests compose *)

(** X12. After a stream for the prompt [p] has completed, the next prompt
    [q] is assembled with the whole earlier history followed by the new
    turn: the last message's content is the header line, the lines of the
    history as it was, the line holding the user label, [p], the chatbot
    label and every token with content, and then [Human: ] with [q]. *)
Theorem completed_turn_is_replayed
    (st : app_state) (p q : string) (upstream : list chunk)
    (messages : list ChatMessage) :
  has_onboarding_keys st →
  p ≠ EmptyString → p ≠ "None" →
  mistral_messages (serve (ReqSse (Some p) upstream) st) q = Some messages →
  content <$> last messages
  = Some ("Previous messages:" +:+ nl
          +:+ concat_strings (history_line <$> message_history st)
          +:+ (initial_output p +:+ concat_strings (tokens upstream)) +:+ nl
          +:+ "Human: " +:+ q).
Proof.
  intros Hk H1 H2 Hm.
  assert (∀ chat, ReqSse (Some p) upstream ≠ ReqIndex chat true) as Hr
    by done.
  destruct (serve_history _ _ Hk Hr) as [_ Hh].
  assert (active_streams [ReqSse (Some p) upstream] = [(p, upstream)])
    as Ha.
  { unfold active_streams. simpl. by rewrite !bool_decide_eq_false_2. }
  rewrite Ha in Hh.
  remember (serve (ReqSse (Some p) upstream) st) as st' eqn:Est. clear Est.
  rewrite (mistral_messages_last _ _ _ Hm). simpl. f_equal.
  rewrite Hh, prompt_template_lines, fmap_app, concat_strings_app.
  simpl. unfold history_line at 2. simpl. unfold final_output.
  by rewrite append_empty_r, !append_assoc.
Qed.

(** X13. A reset makes the assembler forget the turns but not the
    onboarding answers: after it the last message's content is just the
    header line and [Human: ] with the prompt, while the seven messages
    before it are the ones the assembler produced without the reset. *)
Theorem reset_forgets_turns_not_answers
    (chat : option string) (st : app_state) (prompt : string)
    (before : list ChatMessage) :
  mistral_messages st prompt = Some before →
  ∃ after,
    mistral_messages (api_index chat true st).2 prompt = Some after
    ∧ take 7 after = take 7 before
    ∧ last after
      = Some {| role := "user";
                content := "Previous messages:" +:+ nl
                           +:+ "Human: " +:+ prompt |}.
Proof.
  unfold mistral_messages. simpl.
  destruct (system_information st !! key_systems); [|done].
  destruct (system_information st !! key_observations); [|done].
  destruct (system_information st !! key_errors); [|done].
  simpl. intros ?; simplify_eq. eexists. by split_and!.
Qed.

Lemma since_reset_no_reset rs :
  existsb is_reset rs = false → since_reset rs = rs.
Proof.
  induction rs as [|r rs IH]; [done|]. simpl.
  intros H. apply orb_false_iff in H as [Hr Hrs].
  by rewrite Hrs, Hr.
Qed.

Lemma is_reset_false r :
  is_reset r = false → ∀ chat, r ≠ ReqIndex chat true.
Proof. intros H chat ->. done. Qed.

Lemma is_reset_true r st :
  is_reset r = true → message_history (serve r st) = [].
Proof. by destruct r as [chat [|]| |]. Qed.

(** X14. After any sequence of requests, the history consists of the
    entries of the streaming requests that took the generation path since
    the last reset, in order; they follow the earlier history when the
    sequence has no reset and stand alone when it has one. *)
Theorem history_is_turns_since_reset (rs : list request) (st : app_state) :
  has_onboarding_keys st →
  message_history (serve_all rs st)
  = (if existsb is_reset rs then [] else message_history st)
    ++ entries (active_streams (since_reset rs)).
Proof.
  revert st; induction rs as [|r rs IH]; intros st Hk.
  - simpl. by rewrite app_nil_r.
  - change (serve_all (r :: rs) st) with (serve_all rs (serve r st)).
    rewrite (IH _ (serve_keys r st Hk)). simpl.
    destruct (existsb is_reset rs) eqn:Hrs.
    + by rewrite orb_true_r.
    + rewrite orb_false_r, (since_reset_no_reset _ Hrs).
      destruct (is_reset r) eqn:Hr.
      * by rewrite (is_reset_true _ _ Hr).
      * destruct (serve_history r st Hk (is_reset_false _ Hr)) as [_ ->].
        rewrite (active_streams_cons r rs). unfold entries.
        by rewrite fmap_app, (assoc_L (++)).
Qed.

Lemma serve_all_snoc rs r st :
  serve_all (rs ++ [r]) st = serve r (serve_all rs st).
Proof. unfold serve_all. by rewrite fold_left_app. Qed.

Lemma last_onboarding_snoc rs r :
  last_onboarding (rs ++ [r])
  = match r with
    | ReqInitialInformation a b c => Some (a, b, c)
    | _ => last_onboarding rs
    end.
Proof.
  unfold last_onboarding. rewrite omap_app.
  destruct r as [chat reset|a b c|prompt upstream]; simpl.
  - by rewrite app_nil_r.
  - by rewrite last_snoc.
  - by rewrite app_nil_r.
Qed.

(** X15. After any sequence of requests, the onboarding dictionary is the
    one the most recent onboarding submission would have produced from the
    starting dictionary, and the starting dictionary itself when nothing
    was submitted: index requests, resets and streams never change it. *)
Theorem onboarding_is_last_submission (rs : list request) (st : app_state) :
  system_information (serve_all rs st)
  = match last_onboarding rs with
    | Some (a, b, c) =>
        system_information (update_initial_information a b c st)
    | None => system_information st
    end.
Proof.
  induction rs as [|r rs IH] using rev_ind; [done|].
  rewrite serve_all_snoc, last_onboarding_snoc.
  destruct r as [chat reset|a b c|prompt upstream].
  - rewrite <- IH. by destruct reset.
  - unfold update_initial_information at 1. simpl. rewrite IH.
    destruct (last_onboarding rs) as [[[a' b'] c']|]; [|done].
    simpl. by rewrite onboarding_inserts_overwrite.
  - rewrite <- IH. unfold serve. apply run_system_information.
Qed.

(** ** The page *)

(** X16. The page returned by [api_index] has one table, whose rows are
    the history the request leaves behind, so none after a reset and the
    stored entries in order otherwise; and one server-load component, which
    asks for an event stream at [/sse/] followed by the chat text, the text
    [None] when no chat is given, for which [sse_ai_response] serves
    [empty_response]. *)
Theorem page_shows_history_and_requests_stream
    (chat : option string) (reset : bool) (st : app_state)
    (upstream : list chunk) :
  concat (map tables (api_index chat reset st).1)
  = [message_history (api_index chat reset st).2]
  ∧ concat (map tables (api_index chat true st).1) = [[]]
  ∧ concat (map tables (api_index chat false st).1) = [message_history st]
  ∧ concat (map server_loads (api_index chat reset st).1)
    = [("/sse/" +:+ str_of_optional chat, true)]
  ∧ sse_ai_response (Some (str_of_optional None)) upstream = empty_response.
Proof. by destruct reset. Qed.

End Relay.

(** ** The theorems at concrete inputs *)

Lemma sample_state_keys : has_onboarding_keys sample_state.
Proof. repeat split; by eexists. Qed.

Lemma relay_emits_accumulated_output_witness :
  has_onboarding_keys sample_state
  ∧ frames (run bracket_dump
              (completion_steps
                 [Some "Hello"; Some EmptyString; Some " world"])
              (ai_response_generator "Z"
                 [Some "Hello"; Some EmptyString; Some " world"])
              sample_state).1.1
    = [ sse_frame bracket_dump (initial_output "Z" +:+ "Hello");
        sse_frame bracket_dump
          ((initial_output "Z" +:+ "Hello") +:+ " world") ].
Proof.
  split; [exact sample_state_keys|].
  exact (proj2 (proj2 (proj2
           (relay_emits_accumulated_output bracket_dump sample_state "Z" []
              sample_state_keys)))).
Defined.

Lemma final_message_replays_history_witness :
  ∃ messages,
    mistral_messages sample_state "Z" = Some messages
    ∧ content <$> last messages
      = Some ("Previous messages:" +:+ nl
              +:+ "X" +:+ nl +:+ "Y" +:+ nl +:+ "Human: Z").
Proof.
  eexists. split; [reflexivity|].
  rewrite (proj1 (final_message_replays_history sample_state "Z" _ eq_refl)).
  reflexivity.
Defined.

Lemma assembler_emits_eight_messages_witness :
  system_information sample_state !! key_systems = Some "A"
  ∧ system_information sample_state !! key_observations = Some "B"
  ∧ system_information sample_state !! key_errors = Some "C"
  ∧ (length <$> mistral_messages sample_state "Z") = Some 8.
Proof.
  split_and!; [reflexivity..|].
  exact (proj2 (assembler_emits_eight_messages sample_state "Z" "A" "B" "C"
                  eq_refl eq_refl eq_refl)).
Defined.

Lemma empty_prompt_repeats_first_frame_witness :
  frames (run bracket_dump (1 + 2 * 3)
            (sse_ai_response (Some "None") []) app_init).1.1
  = replicate 4 (sse_frame bracket_dump EmptyString).
Proof.
  exact (proj1 (proj2 (proj2
           (empty_prompt_repeats_first_frame bracket_dump (Some "None") []
              app_init 3 (or_intror (or_intror eq_refl)))))).
Defined.

Lemma heartbeat_repeats_last_content_frame_witness :
  has_onboarding_keys sample_state
  ∧ (run bracket_dump
       (completion_steps [Some "Hello"; Some EmptyString; Some " world"])
       (ai_response_generator "Z"
          [Some "Hello"; Some EmptyString; Some " world"])
       sample_state).1.2
    = Some (GenAi (AiBeat
              (sse_frame bracket_dump
                 ((initial_output "Z" +:+ "Hello") +:+ " world")))).
Proof.
  split; [exact sample_state_keys|].
  exact (proj1
           (heartbeat_repeats_last_content_frame bracket_dump sample_state
              "Z" [Some "Hello"; Some EmptyString; Some " world"]
              (sse_frame bracket_dump
                 ((initial_output "Z" +:+ "Hello") +:+ " world"))
              3 sample_state_keys eq_refl)).
Defined.

Lemma history_records_each_prompt_witness :
  length (message_history
            (serve_all bracket_dump
               [ ReqSse (Some "disk full") [Some "Check"; Some " df"];
                 ReqInitialInformation "db" "slow" "timeout";
                 ReqIndex (Some "why") false;
                 ReqSse (Some "None") [];
                 ReqSse (Some "why") [None] ]
               app_init))
  = 2.
Proof.
  refine (proj1
            (history_records_each_prompt bracket_dump
               [ ReqSse (Some "disk full") [Some "Check"; Some " df"];
                 ReqInitialInformation "db" "slow" "timeout";
                 ReqIndex (Some "why") false;
                 ReqSse (Some "None") [];
                 ReqSse (Some "why") [None] ]
               app_init app_init_keys eq_refl _)).
  repeat constructor; intros chat; discriminate.
Defined.

Lemma history_order_is_insertion_order_witness :
  message_history (append_history "out" sample_state)
  = message_history sample_state
  ∨ ∃ output,
      message_history (append_history "out" sample_state)
      = message_history sample_state ++ [{| message := output |}].
Proof.
  exact (proj1 (history_order_is_insertion_order bracket_dump)
           (GenAi (AiStream "out" "m" [])) sample_state []
           (GenAi (AiBeat "m")) (append_history "out" sample_state)
           eq_refl).
Defined.

Lemma silent_stream_heartbeat_is_empty_text_witness :
  message_history
    (run bracket_dump (completion_steps [None; Some EmptyString])
       (ai_response_generator "Z" [None; Some EmptyString])
       sample_state).2
  = message_history sample_state
    ++ [{| message :=
             "**User:** " +:+ "Z" +:+ nl +:+ nl +:+ "**Chatbot:** " |}].
Proof.
  refine (proj1 (proj2
            (silent_stream_heartbeat_is_empty_text bracket_dump sample_state
               "Z" [None; Some EmptyString] 2 sample_state_keys _))).
  constructor; [by left|].
  constructor; [by right|].
  constructor.
Defined.

Lemma heartbeat_yields_before_waiting_witness :
  (run bracket_dump 3 empty_response sample_state).1.1
  = [ EvYield (sse_frame bracket_dump EmptyString);
      EvYield (sse_frame bracket_dump EmptyString);
      EvSleep 10 ].
Proof.
  exact (proj1
           (heartbeat_yields_before_waiting bracket_dump sample_state "Z"
              [Some "Hello"] 1 sample_state_keys)).
Defined.

Lemma update_initial_information_overwrites_witness :
  system_information (update_initial_information "A" "B" "C" bare_state)
    !! "Region"
  = system_information bare_state !! "Region".
Proof.
  refine (proj1 (proj2 (proj2 (proj2
            (update_initial_information_overwrites "A" "B" "C" bare_state))))
            "Region" _ _ _);
    by compute.
Defined.

Lemma missing_key_ends_the_generator_witness :
  system_information bare_state !! key_systems = None
  ∧ run bracket_dump 3 (ai_response_generator "Z" [Some "Hello"]) bare_state
    = ([], None, bare_state).
Proof.
  split; [reflexivity|].
  exact (missing_key_ends_the_generator bracket_dump bare_state "Z"
           [Some "Hello"] 2 (or_introl eq_refl)).
Defined.

Lemma abandoned_stream_leaves_no_entry_witness :
  (run bracket_dump 3
     (ai_response_generator "Z" [Some "Hello"; Some " world"])
     sample_state).2
  = sample_state.
Proof.
  refine (abandoned_stream_leaves_no_entry bracket_dump sample_state "Z"
            [Some "Hello"; Some " world"] 3 _).
  simpl. lia.
Defined.

Lemma history_entry_is_last_rendered_text_witness :
  last (frames (run bracket_dump
                  (completion_steps [Some "Hello"; None; Some " world"])
                  (ai_response_generator "Z"
                     [Some "Hello"; None; Some " world"])
                  sample_state).1.1)
  = Some (sse_frame bracket_dump
            (initial_output "Z"
             +:+ concat_strings (tokens [Some "Hello"; None; Some " world"]))).
Proof.
  refine (proj2
            (history_entry_is_last_rendered_text bracket_dump sample_state
               "Z" [Some "Hello"; None; Some " world"] sample_state_keys _)).
  discriminate.
Defined.

Lemma chunks_without_content_are_invisible_witness :
  tokens [Some "a"; None] = tokens [Some EmptyString; Some "a"]
  ∧ (run bracket_dump (completion_steps [Some "a"; None])
       (ai_response_generator "Z" [Some "a"; None]) sample_state).2
    = (run bracket_dump (completion_steps [Some EmptyString; Some "a"])
         (ai_response_generator "Z" [Some EmptyString; Some "a"])
         sample_state).2.
Proof.
  split; [reflexivity|].
  exact (proj1 (proj2
           (chunks_without_content_are_invisible bracket_dump sample_state
              "Z" [Some "a"; None] [Some EmptyString; Some "a"]
              sample_state_keys eq_refl))).
Defined.

Lemma provider_is_called_once_witness :
  ∃ messages,
    mistral_messages sample_state "Z" = Some messages
    ∧ provider_calls
        (run bracket_dump 6 (ai_response_generator "Z" [Some "Hello"])
           sample_state).1.1
      = [("mistral-small", messages)].
Proof.
  eexists. split; [reflexivity|].
  exact (proj2
           (provider_is_called_once bracket_dump sample_state "Z"
              [Some "Hello"] _ 5 eq_refl)).
Defined.

Lemma empty_prompt_touches_nothing_witness :
  active_prompt (Some "None") = None
  ∧ (run bracket_dump 7 (sse_ai_response (Some "None") [Some "Hello"])
       sample_state).2
    = sample_state.
Proof.
  split; [reflexivity|].
  exact (proj2
           (empty_prompt_touches_nothing bracket_dump (Some "None")
              [Some "Hello"] sample_state 7 eq_refl)).
Defined.

Lemma dispatch_of_prompts_witness :
  sse_ai_response (Some "none") [] = ai_response_generator "none" [].
Proof.
  refine (proj2 (dispatch_of_prompts (Some "none") "none" []) _).
  split_and!; [reflexivity | discriminate | discriminate].
Defined.

Lemma completed_turn_is_replayed_witness :
  ∃ messages,
    mistral_messages
      (serve bracket_dump (ReqSse (Some "P") [Some "ok"]) sample_state) "Q"
    = Some messages
    ∧ content <$> last messages
      = Some ("Previous messages:" +:+ nl
              +:+ "X" +:+ nl +:+ "Y" +:+ nl
              +:+ "**User:** P" +:+ nl +:+ nl +:+ "**Chatbot:** ok" +:+ nl
              +:+ "Human: Q").
Proof.
  eexists. split; [reflexivity|].
  refine (completed_turn_is_replayed bracket_dump sample_state "P" "Q"
            [Some "ok"] _ sample_state_keys _ _ eq_refl); discriminate.
Defined.

Lemma reset_forgets_turns_not_answers_witness :
  ∃ before after,
    mistral_messages sample_state "Q" = Some before
    ∧ mistral_messages (api_index None true sample_state).2 "Q" = Some after
    ∧ take 7 after = take 7 before
    ∧ last after
      = Some {| role := "user";
                content := "Previous messages:" +:+ nl +:+ "Human: Q" |}.
Proof.
  eexists.
  destruct (reset_forgets_turns_not_answers None sample_state "Q" _ eq_refl)
    as (after & H1 & H2 & H3).
  exists after. split_and!; [reflexivity | exact H1 | exact H2 | exact H3].
Defined.

Lemma history_is_turns_since_reset_witness :
  message_history
    (serve_all bracket_dump
       [ ReqSse (Some "first") [Some "one"];
         ReqIndex None true;
         ReqSse (Some "second") [Some "two"] ]
       app_init)
  = [{| message := final_output "second" [Some "two"] |}].
Proof.
  exact (history_is_turns_since_reset bracket_dump
           [ ReqSse (Some "first") [Some "one"];
             ReqIndex None true;
             ReqSse (Some "second") [Some "two"] ]
           app_init app_init_keys).
Defined.
